(** * The [pulse8] wave table of the Dual LFO sketch

    [DUAL_LFO/pulse8.h] holds one constant: a 256-byte wave table kept in
    program memory, one period of a pulse wave whose high phase lasts eight
    samples.  This development embeds the table entry for entry, gives the
    array subscript a partial reading (a subscript outside the array has no
    defined value in C), and proves the table's shape, its counting and
    ordering properties, its extent, and its period under cyclic indexing. *)

From Stdlib Require Import ZArith List Lia QArith Bool.
From Stdlib Require Strings.Byte.
Import ListNotations.

Local Open Scope Z_scope.

Module Pulse8.

(** ** Data *)

(** Arduino's [byte] is an unsigned 8-bit integer; it is carried here as an
    integer, with the range stated separately by [is_byte]. *)
Definition byte : Type := Z.

Definition is_byte (b : byte) : bool := (0 <=? b) && (b <? 256).

(** [PROGMEM byte pulse8[] = { ... };] -- one entry per source line, with the
    source's own index comments. *)
Definition pulse8 : list byte := [
  255;  (* 0 *)
  255;  (* 1 *)
  255;  (* 2 *)
  255;  (* 3 *)
  255;  (* 4 *)
  255;  (* 5 *)
  255;  (* 6 *)
  255;  (* 7 *)
  0;  (* 8 *)
  0;  (* 9 *)
  0;  (* 10 *)
  0;  (* 11 *)
  0;  (* 12 *)
  0;  (* 13 *)
  0;  (* 14 *)
  0;  (* 15 *)
  0;  (* 16 *)
  0;  (* 17 *)
  0;  (* 18 *)
  0;  (* 19 *)
  0;  (* 20 *)
  0;  (* 21 *)
  0;  (* 22 *)
  0;  (* 23 *)
  0;  (* 24 *)
  0;  (* 25 *)
  0;  (* 26 *)
  0;  (* 27 *)
  0;  (* 28 *)
  0;  (* 29 *)
  0;  (* 30 *)
  0;  (* 31 *)
  0;  (* 32 *)
  0;  (* 33 *)
  0;  (* 34 *)
  0;  (* 35 *)
  0;  (* 36 *)
  0;  (* 37 *)
  0;  (* 38 *)
  0;  (* 39 *)
  0;  (* 40 *)
  0;  (* 41 *)
  0;  (* 42 *)
  0;  (* 43 *)
  0;  (* 44 *)
  0;  (* 45 *)
  0;  (* 46 *)
  0;  (* 47 *)
  0;  (* 48 *)
  0;  (* 49 *)
  0;  (* 50 *)
  0;  (* 51 *)
  0;  (* 52 *)
  0;  (* 53 *)
  0;  (* 54 *)
  0;  (* 55 *)
  0;  (* 56 *)
  0;  (* 57 *)
  0;  (* 58 *)
  0;  (* 59 *)
  0;  (* 60 *)
  0;  (* 61 *)
  0;  (* 62 *)
  0;  (* 63 *)
  0;  (* 64 *)
  0;  (* 65 *)
  0;  (* 66 *)
  0;  (* 67 *)
  0;  (* 68 *)
  0;  (* 69 *)
  0;  (* 70 *)
  0;  (* 71 *)
  0;  (* 72 *)
  0;  (* 73 *)
  0;  (* 74 *)
  0;  (* 75 *)
  0;  (* 76 *)
  0;  (* 77 *)
  0;  (* 78 *)
  0;  (* 79 *)
  0;  (* 80 *)
  0;  (* 81 *)
  0;  (* 82 *)
  0;  (* 83 *)
  0;  (* 84 *)
  0;  (* 85 *)
  0;  (* 86 *)
  0;  (* 87 *)
  0;  (* 88 *)
  0;  (* 89 *)
  0;  (* 90 *)
  0;  (* 91 *)
  0;  (* 92 *)
  0;  (* 93 *)
  0;  (* 94 *)
  0;  (* 95 *)
  0;  (* 96 *)
  0;  (* 97 *)
  0;  (* 98 *)
  0;  (* 99 *)
  0;  (* 100 *)
  0;  (* 101 *)
  0;  (* 102 *)
  0;  (* 103 *)
  0;  (* 104 *)
  0;  (* 105 *)
  0;  (* 106 *)
  0;  (* 107 *)
  0;  (* 108 *)
  0;  (* 109 *)
  0;  (* 110 *)
  0;  (* 111 *)
  0;  (* 112 *)
  0;  (* 113 *)
  0;  (* 114 *)
  0;  (* 115 *)
  0;  (* 116 *)
  0;  (* 117 *)
  0;  (* 118 *)
  0;  (* 119 *)
  0;  (* 120 *)
  0;  (* 121 *)
  0;  (* 122 *)
  0;  (* 123 *)
  0;  (* 124 *)
  0;  (* 125 *)
  0;  (* 126 *)
  0;  (* 127 *)
  0;  (* 128 *)
  0;  (* 129 *)
  0;  (* 130 *)
  0;  (* 131 *)
  0;  (* 132 *)
  0;  (* 133 *)
  0;  (* 134 *)
  0;  (* 135 *)
  0;  (* 136 *)
  0;  (* 137 *)
  0;  (* 138 *)
  0;  (* 139 *)
  0;  (* 140 *)
  0;  (* 141 *)
  0;  (* 142 *)
  0;  (* 143 *)
  0;  (* 144 *)
  0;  (* 145 *)
  0;  (* 146 *)
  0;  (* 147 *)
  0;  (* 148 *)
  0;  (* 149 *)
  0;  (* 150 *)
  0;  (* 151 *)
  0;  (* 152 *)
  0;  (* 153 *)
  0;  (* 154 *)
  0;  (* 155 *)
  0;  (* 156 *)
  0;  (* 157 *)
  0;  (* 158 *)
  0;  (* 159 *)
  0;  (* 160 *)
  0;  (* 161 *)
  0;  (* 162 *)
  0;  (* 163 *)
  0;  (* 164 *)
  0;  (* 165 *)
  0;  (* 166 *)
  0;  (* 167 *)
  0;  (* 168 *)
  0;  (* 169 *)
  0;  (* 170 *)
  0;  (* 171 *)
  0;  (* 172 *)
  0;  (* 173 *)
  0;  (* 174 *)
  0;  (* 175 *)
  0;  (* 176 *)
  0;  (* 177 *)
  0;  (* 178 *)
  0;  (* 179 *)
  0;  (* 180 *)
  0;  (* 181 *)
  0;  (* 182 *)
  0;  (* 183 *)
  0;  (* 184 *)
  0;  (* 185 *)
  0;  (* 186 *)
  0;  (* 187 *)
  0;  (* 188 *)
  0;  (* 189 *)
  0;  (* 190 *)
  0;  (* 191 *)
  0;  (* 192 *)
  0;  (* 193 *)
  0;  (* 194 *)
  0;  (* 195 *)
  0;  (* 196 *)
  0;  (* 197 *)
  0;  (* 198 *)
  0;  (* 199 *)
  0;  (* 200 *)
  0;  (* 201 *)
  0;  (* 202 *)
  0;  (* 203 *)
  0;  (* 204 *)
  0;  (* 205 *)
  0;  (* 206 *)
  0;  (* 207 *)
  0;  (* 208 *)
  0;  (* 209 *)
  0;  (* 210 *)
  0;  (* 211 *)
  0;  (* 212 *)
  0;  (* 213 *)
  0;  (* 214 *)
  0;  (* 215 *)
  0;  (* 216 *)
  0;  (* 217 *)
  0;  (* 218 *)
  0;  (* 219 *)
  0;  (* 220 *)
  0;  (* 221 *)
  0;  (* 222 *)
  0;  (* 223 *)
  0;  (* 224 *)
  0;  (* 225 *)
  0;  (* 226 *)
  0;  (* 227 *)
  0;  (* 228 *)
  0;  (* 229 *)
  0;  (* 230 *)
  0;  (* 231 *)
  0;  (* 232 *)
  0;  (* 233 *)
  0;  (* 234 *)
  0;  (* 235 *)
  0;  (* 236 *)
  0;  (* 237 *)
  0;  (* 238 *)
  0;  (* 239 *)
  0;  (* 240 *)
  0;  (* 241 *)
  0;  (* 242 *)
  0;  (* 243 *)
  0;  (* 244 *)
  0;  (* 245 *)
  0;  (* 246 *)
  0;  (* 247 *)
  0;  (* 248 *)
  0;  (* 249 *)
  0;  (* 250 *)
  0;  (* 251 *)
  0;  (* 252 *)
  0;  (* 253 *)
  0;  (* 254 *)
  0  (* 255 *)
].

(** ** Reading the table *)

(** The array subscript [t[i]].  The source carries no bounds handling; a
    subscript below zero or at or past the end of the array has no defined
    value, which is [None] here. *)
Definition index (t : list byte) (i : Z) : option byte :=
  if i <? 0 then None else nth_error t (Z.to_nat i).

(** [sample i] is [pulse8[i]]. *)
Definition sample (i : Z) : option byte := index pulse8 i.

(** Modelled from the spec: the code that steps through the table and wraps
    its index is not in the source.  The specification has any consumer
    interpret an index modulo 256, which is the floor remainder here, in
    [0, 256) for every integer. *)
Definition wrap (n : Z) : Z := n mod 256.

(** ** Derived quantities *)

(** Number of entries of [t] equal to [v]. *)
Definition count_eq (v : byte) (t : list byte) : nat :=
  length (filter (Z.eqb v) t).

(** Fraction of the period spent at full scale. *)
Definition duty_cycle (t : list byte) : Q :=
  Z.of_nat (count_eq 255 t) # Pos.of_nat (length t).

(** ** Byte serialization *)

(** Modelled from the spec: the source has no serializer; the specification
    speaks of a binary serialization that keeps the 256 values in order.
    [serialize] writes each entry as one octet, in table order, and is
    undefined on an entry that does not fit an octet; [deserialize] reads each
    octet back as an unsigned 8-bit value. *)
Definition octet_of (b : byte) : option Init.Byte.byte :=
  if b <? 0 then None else Strings.Byte.of_N (Z.to_N b).

Fixpoint serialize (t : list byte) : option (list Init.Byte.byte) :=
  match t with
  | [] => Some []
  | b :: rest =>
      match octet_of b, serialize rest with
      | Some o, Some os => Some (o :: os)
      | _, _ => None
      end
  end.

Definition deserialize (os : list Init.Byte.byte) : list byte :=
  map (fun o => Z.of_N (Strings.Byte.to_N o)) os.

(** ** Shape of the table *)

Lemma pulse8_shape : pulse8 = repeat 255 8 ++ repeat 0 248.
Proof. reflexivity. Qed.

Lemma pulse8_bytes : forallb is_byte pulse8 = true.
Proof. reflexivity. Qed.

Lemma index_nat (t : list byte) (i : Z) :
  0 <= i -> index t i = nth_error t (Z.to_nat i).
Proof.
  intros Hi. unfold index.
  destruct (Z.ltb_spec i 0) as [Hneg | _]; [lia | reflexivity].
Qed.

(** Every in-range entry, in one equation. *)
Lemma sample_spec (i : Z) :
  0 <= i < 256 -> sample i = Some (if i <? 8 then 255 else 0).
Proof.
  intros [Hlo Hhi]. unfold sample.
  rewrite index_nat by assumption. rewrite pulse8_shape.
  destruct (Z.ltb_spec i 8) as [Hlt | Hge].
  - rewrite nth_error_app1 by (rewrite repeat_length; lia).
    apply nth_error_repeat. lia.
  - rewrite nth_error_app2 by (rewrite repeat_length; lia).
    rewrite repeat_length. apply nth_error_repeat. lia.
Qed.

(** C1: for every index [i] with [0 <= i < 8], the [i]-th entry of the
    [pulse8] table, [sample i], is 255. *)
Theorem sample_high (i : Z) : 0 <= i < 8 -> sample i = Some 255.
Proof.
  intros Hi. rewrite sample_spec by lia.
  destruct (Z.ltb_spec i 8); [reflexivity | lia].
Qed.

Lemma sample_high_witness : 0 <= 5 < 8 /\ sample 5 = Some 255.
Proof. split; [lia | apply (sample_high 5); lia]. Defined.

(** C2: for every index [i] with [8 <= i < 256], the [i]-th entry of the
    [pulse8] table, [sample i], is 0. *)
Theorem sample_low (i : Z) : 8 <= i < 256 -> sample i = Some 0.
Proof.
  intros Hi. rewrite sample_spec by lia.
  destruct (Z.ltb_spec i 8); [lia | reflexivity].
Qed.

Lemma sample_low_witness : 8 <= 100 < 256 /\ sample 100 = Some 0.
Proof. split; [lia | apply (sample_low 100); lia]. Defined.

(** C3: the [pulse8] table has exactly 256 entries. *)
Theorem pulse8_length : length pulse8 = 256%nat.
Proof. reflexivity. Qed.

(** ** Counting *)

(** C4: exactly 8 of the 256 entries are at full scale (255) and the other
    248 are 0, so the duty cycle of the encoded pulse is 8/256, that is
    3.125 percent. *)
Theorem pulse8_duty_cycle :
  count_eq 255 pulse8 = 8%nat /\
  count_eq 0 pulse8 = 248%nat /\
  length pulse8 = 256%nat /\
  Forall (fun b => b = 255 \/ b = 0) pulse8 /\
  (duty_cycle pulse8 == 8 # 256)%Q /\
  (duty_cycle pulse8 * 100 == 3125 # 1000)%Q.
Proof.
  repeat split; try reflexivity.
  rewrite pulse8_shape. apply Forall_app. split.
  - apply Forall_forall. intros b Hb. left. exact (repeat_spec _ _ _ Hb).
  - apply Forall_forall. intros b Hb. right. exact (repeat_spec _ _ _ Hb).
Qed.

(** ** An end-to-end reading *)

(** C5: on the index sequence 0, 4, 7, 8, 100, 255, 256, with the last index
    wrapped modulo 256 to 0 before the lookup, [sample] yields
    255, 255, 255, 0, 0, 0, 255. *)
Theorem sample_scenario :
  256 mod 256 = 0 /\
  map sample [0; 4; 7; 8; 100; 255; 256 mod 256]
    = map Some [255; 255; 255; 0; 0; 0; 255] /\
  map (fun i => sample (i mod 256)) [0; 4; 7; 8; 100; 255; 256]
    = map Some [255; 255; 255; 0; 0; 0; 255].
Proof. repeat split. Qed.

(** ** Serialization *)

Lemma octet_round_trip (b : byte) :
  is_byte b = true ->
  exists o, octet_of b = Some o /\ Z.of_N (Strings.Byte.to_N o) = b.
Proof.
  unfold is_byte, octet_of. intros Hb.
  apply andb_true_iff in Hb. destruct Hb as [Hlo Hhi].
  apply Z.leb_le in Hlo. apply Z.ltb_lt in Hhi.
  destruct (Z.ltb_spec b 0) as [Hneg | _]; [lia |].
  destruct (Strings.Byte.of_N (Z.to_N b)) as [o |] eqn:E.
  - exists o. split; [reflexivity |].
    apply Strings.Byte.to_of_N in E. rewrite E. lia.
  - apply Strings.Byte.of_N_None_iff in E. lia.
Qed.

Lemma serialize_round_trip (t : list byte) :
  forallb is_byte t = true ->
  exists os, serialize t = Some os /\
             length os = length t /\
             deserialize os = t.
Proof.
  induction t as [| b rest IH]; simpl; intros Ht.
  - exists []. repeat split.
  - apply andb_true_iff in Ht. destruct Ht as [Hb Hrest].
    destruct (octet_round_trip b Hb) as [o [Ho Hback]].
    destruct (IH Hrest) as [os [Hos [Hlen Hdes]]].
    exists (o :: os). rewrite Ho, Hos. split; [reflexivity |]. split.
    + simpl. now rewrite Hlen.
    + unfold deserialize in *. simpl. now rewrite Hback, Hdes.
Qed.

(** C7: round trip.  Serializing the [pulse8] table as its 256 byte values in
    order succeeds, and deserializing the resulting byte sequence gives back
    a table equal to [pulse8]. *)
Theorem pulse8_round_trip :
  exists os, serialize pulse8 = Some os /\
             length os = 256%nat /\
             deserialize os = pulse8.
Proof.
  destruct (serialize_round_trip pulse8 pulse8_bytes) as [os [Hs [Hl Hd]]].
  exists os. repeat split; assumption.
Qed.

(** ** Totality in range *)

(** C8: for every index [i] with [0 <= i < 256] the lookup cannot fail:
    [sample i] is some byte value, never the out-of-bounds result [None]. *)
Theorem sample_in_range (i : Z) :
  0 <= i < 256 ->
  (exists b, sample i = Some b /\ is_byte b = true) /\ sample i <> None.
Proof.
  intros Hi. rewrite (sample_spec i Hi). split.
  - eexists. split; [reflexivity |]. now destruct (i <? 8).
  - discriminate.
Qed.

Lemma sample_in_range_witness :
  0 <= 255 < 256 /\ sample 255 <> None.
Proof. split; [lia | apply (sample_in_range 255); lia]. Defined.

(** ** Periodicity and ordering *)

Lemma wrap_range (n : Z) : 0 <= wrap n < 256.
Proof. unfold wrap. apply Z.mod_pos_bound. lia. Qed.

Lemma wrap_shift (n p : Z) : wrap (n + p) = wrap (n + wrap p).
Proof. unfold wrap. now rewrite Z.add_mod_idemp_r by lia. Qed.

Lemma wrap_small (n : Z) : 0 <= n < 256 -> wrap n = n.
Proof. unfold wrap. intros Hn. now apply Z.mod_small. Qed.

(** C9: the table is periodic under cyclic indexing, and it is one full
    period.  For every integer [n], [sample (n mod 256)] equals
    [sample ((n + 256) mod 256)] and is defined; and a shift [p] of the index
    leaves every cyclic read unchanged exactly when [p] is a multiple of 256,
    so the table repeats no shorter pattern. *)
Theorem sample_periodic :
  (forall n, sample (wrap n) = sample (wrap (n + 256))) /\
  (forall n, exists b, sample (wrap n) = Some b) /\
  (forall p, (forall n, sample (wrap (n + p)) = sample (wrap n))
             <-> wrap p = 0).
Proof.
  split; [| split].
  - intros n. rewrite (wrap_shift n 256). change (wrap 256) with 0.
    now rewrite Z.add_0_r.
  - intros n. eexists. apply sample_spec. apply wrap_range.
  - intros p. split.
    + intros Hper. pose proof (wrap_range p) as Hq.
      destruct (Z.eq_dec (wrap p) 0) as [Hz | Hnz]; [exact Hz | exfalso].
      destruct (Z.lt_ge_cases (wrap p) 8) as [Hshort | Hlong].
      * (* a shift of 1..7 moves index 7 out of the high phase *)
        specialize (Hper 7). rewrite (wrap_shift 7 p) in Hper.
        rewrite (wrap_small (7 + wrap p)) in Hper by lia.
        rewrite (wrap_small 7) in Hper by lia.
        rewrite !sample_spec in Hper by lia.
        destruct (Z.ltb_spec (7 + wrap p) 8); [lia | discriminate].
      * (* a shift of 8..255 moves index 0 out of the high phase *)
        specialize (Hper 0). rewrite (wrap_shift 0 p) in Hper.
        rewrite (wrap_small (0 + wrap p)) in Hper by lia.
        rewrite (wrap_small 0) in Hper by lia.
        rewrite !sample_spec in Hper by lia.
        destruct (Z.ltb_spec (0 + wrap p) 8); [lia | discriminate].
    + intros Hz n. rewrite (wrap_shift n p), Hz. now rewrite Z.add_0_r.
Qed.

Lemma sample_periodic_witness :
  wrap 512 = 0 /\
  sample (wrap (-3 + 512)) = sample (wrap (-3)) /\
  ~ (forall n, sample (wrap (n + 128)) = sample (wrap n)).
Proof.
  destruct sample_periodic as [_ [_ Hiff]].
  split; [reflexivity |]. split.
  - exact (proj2 (Hiff 512) eq_refl (-3)).
  - intros Hper. pose proof (proj1 (Hiff 128) Hper) as H0. discriminate H0.
Defined.

(** C10: within one period the table never rises.  For indices [i], [j] with
    [0 <= i <= j < 256], [sample i] is at least [sample j]; and from one
    entry to the next the value falls exactly at index 8 and rises nowhere. *)
Theorem sample_nonincreasing :
  (forall i j, 0 <= i <= j /\ j < 256 ->
     exists a b, sample i = Some a /\ sample j = Some b /\ a >= b) /\
  (forall k, 0 < k < 256 ->
     exists p c, sample (k - 1) = Some p /\ sample k = Some c /\
                 (c < p <-> k = 8) /\ ~ p < c).
Proof.
  split.
  - intros i j Hij.
    exists (if i <? 8 then 255 else 0), (if j <? 8 then 255 else 0).
    rewrite !sample_spec by lia. repeat split.
    destruct (Z.ltb_spec i 8), (Z.ltb_spec j 8); lia.
  - intros k Hk.
    exists (if k - 1 <? 8 then 255 else 0), (if k <? 8 then 255 else 0).
    rewrite !sample_spec by lia. repeat split;
      destruct (Z.ltb_spec (k - 1) 8), (Z.ltb_spec k 8); lia.
Qed.

Lemma sample_nonincreasing_witness :
  (0 <= 7 <= 8 /\ 8 < 256) /\
  exists a b, sample 7 = Some a /\ sample 8 = Some b /\ a >= b.
Proof.
  split; [lia |]. exact (proj1 sample_nonincreasing 7 8 ltac:(lia)).
Defined.

(** ** The extent of the array *)

Lemma index_none (t : list byte) (i : Z) :
  index t i = None <-> i < 0 \/ Z.of_nat (length t) <= i.
Proof.
  unfold index. destruct (Z.ltb_spec i 0) as [Hneg | Hpos].
  - split; [intros _; left; exact Hneg | reflexivity].
  - rewrite nth_error_None. lia.
Qed.

(** The array has 256 initialisers and no bounds handling of its own: a
    subscript has no defined value exactly when it is negative or at least
    256.  In particular [pulse8[256]], one past the end, and [pulse8[-1]] are
    outside the array. *)
Theorem sample_out_of_range (i : Z) :
  sample i = None <-> i < 0 \/ 256 <= i.
Proof.
  unfold sample. rewrite index_none.
  change (Z.of_nat (length pulse8)) with 256. reflexivity.
Qed.

Lemma sample_out_of_range_witness : sample 256 = None /\ sample (-1) = None.
Proof.
  split.
  - apply (proj2 (sample_out_of_range 256)). right. lia.
  - apply (proj2 (sample_out_of_range (-1))). left. lia.
Defined.

(** The high phase, read backwards: over all integer subscripts, the table is
    at full scale only at 0..7 and at zero only at 8..255, and it holds no
    other value. *)
Theorem sample_inversion (i : Z) (b : byte) :
  sample i = Some b ->
  0 <= i < 256 /\ (b = 255 \/ b = 0) /\ (b = 255 <-> i < 8) /\ (b = 0 <-> 8 <= i).
Proof.
  intros Hs.
  assert (Hi : 0 <= i < 256).
  { destruct (Z.lt_ge_cases i 0) as [Hneg | Hpos];
      [| destruct (Z.lt_ge_cases i 256) as [Hlt | Hge]; [lia |]].
    all: assert (Hn : sample i = None)
           by (apply index_none; change (Z.of_nat (length pulse8)) with 256; lia).
    all: congruence. }
  rewrite (sample_spec i Hi) in Hs. injection Hs as Hb.
  destruct (Z.ltb_spec i 8); subst b; repeat split; intros; try lia.
Qed.

Lemma sample_inversion_witness :
  sample 7 = Some 255 /\ 0 <= 7 < 256 /\ (255 = 255 <-> 7 < 8).
Proof.
  pose proof (sample_inversion 7 255 eq_refl) as [Hr [_ [Hh _]]].
  exact (conj eq_refl (conj Hr Hh)).
Defined.

End Pulse8.
